(** * The RAG indexing tutorial notebook, cell by cell

    A shallow embedding of [src/Indexing-tutorial.ipynb]: the code cells of
    the notebook, run top to bottom in one kernel.  The notebook is a
    script over third-party libraries (pathlib, python-dotenv, the PDF
    loader, the text splitter, the Ollama embedding client, pymongo), so
    the model has three layers:

    - [World]: what the outside answers to each external call of the
      notebook (the file system, the process environment, the libraries
      and services), each call either returning a value or raising;
    - [M]: the effects the cells have: a trace of the external calls,
      raised exceptions and printed values, and an exception that ends
      the computation;
    - [Globals]: the kernel's global variables that one cell sets and a
      later cell reads.

    The world is fixed during one run: the same call with the same
    arguments gets the same answer. *)

From Stdlib Require Import Floats.
From stdpp Require Import gmap strings list fin_maps.

Open Scope string_scope.
Open Scope list_scope.

(** ** Paths

    [pathlib.Path] values of the notebook are absolute POSIX paths; a
    path is the list of its components below the root, so [[]] is [/]. *)

Definition Path : Type := list string.

(** [Path.parent]: the root is its own parent. *)
Definition parent (p : Path) : Path := removelast p.

(** [Path.parents]: the ancestors, nearest first, down to the root; the
    root has none. *)
Fixpoint ancestors (n : nat) (p : Path) : list Path :=
  match n with
  | O => []
  | S n' => parent p :: ancestors n' (parent p)
  end.

Definition parents (p : Path) : list Path := ancestors (length p) p.

(** [root / "a" / "b"]. *)
Definition joinpath (p : Path) (names : list string) : Path := p ++ names.

(** [str(path)]. *)
Definition path_str (p : Path) : string := "/" +:+ String.concat "/" p.

(** ** Exceptions *)

Inductive PyExc : Type :=
| AssertionError (msg : option string)   (* a failed [assert], with its message if any *)
| Exception_ (msg : string)              (* [raise Exception(msg)] *)
| IndexError                             (* list index out of range *)
| NameError (name : string)              (* a global read before the cell that sets it ran *)
| LibError (cls : string) (msg : string) (* an [Exception] subclass raised inside a library or the OS *)
| KeyboardInterrupt.                     (* a [BaseException] that is not an [Exception] *)

(** [isinstance(e, Exception)], what [except Exception] matches. *)
Definition is_Exception (e : PyExc) : bool :=
  match e with
  | KeyboardInterrupt => false
  | _ => true
  end.

(** ** Documents and vectors *)

Inductive MetaVal : Type :=
| MStr (s : string)
| MInt (z : Z).

Record Document : Type := mkDocument {
  page_content : string;
  metadata : gmap string MetaVal;
  id : option string
}.

Definition Vector : Type := list float.

Record SplitterConfig : Type := mkSplitterConfig {
  chunk_size : Z;
  chunk_overlap : Z;
  add_start_index : bool
}.

(** ** External calls, printed values and traces *)

Inductive extcall : Type :=
| ImportModules
| Getcwd
| Listdir (p : Path)
| Exists (p : Path)
| LoadDotenv (f : Path)
| LoaderInit (file_path : Path)
| LoaderLoad (file_path : Path)
| SplitterInit (cfg : SplitterConfig)
| SplitDocuments (cfg : SplitterConfig) (docs : list Document)
| EmbedderInit (model : string)
| EmbedQuery (model : string) (text : string)
| Getenv (key : string)
| MongoClient (uri : option string)
| Ping (uri : option string)
| VectorStoreInit (model : string) (db collection index_name relevance : string).

(** A printed or displayed value, before it is formatted: an f-string
    around one value is kept as that value. *)
Inductive output : Type :=
| OutStr (s : string)
| OutPath (p : Path)
| OutNat (n : nat)
| OutBool (b : bool)
| OutMeta (m : gmap string MetaVal)
| OutVec (v : Vector)
| OutExc (e : PyExc)
| OutPair (a b : output).                (* [print(a, b)] *)

Inductive event : Type :=
| Call (c : extcall)      (* the notebook issues an external call *)
| Raise (e : PyExc)       (* an exception is raised, by the call before it or by the cell itself *)
| Out (o : output).       (* a value is printed or displayed *)

Definition trace : Type := list event.

(** ** The effect monad: a trace and an exception or a value *)

Definition M (E A : Type) : Type := (trace * (E + A))%type.

Definition ret {E A} (a : A) : M E A := ([], inr a).

Definition bind {E A B} (m : M E A) (k : A -> M E B) : M E B :=
  match m with
  | (t, inl e) => (t, inl e)
  | (t, inr a) => let (t', r) := k a in (t ++ t', r)
  end.

Notation "x <- m ;; k" := (bind m (fun x => k))
  (at level 100, m at next level, right associativity, only parsing).
Notation "m ;;; k" := (bind m (fun _ => k))
  (at level 100, right associativity, only parsing).

Definition emit {E} (ev : event) : M E unit := ([ev], inr tt).

(** [raise e]. *)
Definition raise {A} (e : PyExc) : M PyExc A := ([Raise e], inl e).

(** An external call and the world's answer to it. *)
Definition call {A} (c : extcall) (answer : PyExc + A) : M PyExc A :=
  emit (Call c);;;
  match answer with
  | inl e => raise e
  | inr a => ret a
  end.

(** A call that returns nothing of interest. *)
Definition call_ (c : extcall) (answer : option PyExc) : M PyExc unit :=
  call c (match answer with Some e => inl e | None => inr tt end).

Definition print (o : output) : M PyExc unit := emit (Out o).

(** [assert cond, msg]. *)
Definition assert_ (cond : bool) (msg : option string) : M PyExc unit :=
  if cond then ret tt else raise (AssertionError msg).

(** [l[i]] for a non-negative constant [i]. *)
Definition index {A} (l : list A) (i : nat) : M PyExc A :=
  match l !! i with
  | Some x => ret x
  | None => raise IndexError
  end.

(** Reading a global variable. *)
Definition global {A} (name : string) (v : option A) : M PyExc A :=
  match v with
  | Some x => ret x
  | None => raise (NameError name)
  end.

(** [try: body  except Exception as e: handler(e)]. *)
Definition try_except {A} (body : M PyExc A) (handler : PyExc -> M PyExc A) : M PyExc A :=
  match body with
  | (t, inl e) =>
      if is_Exception e then let (t', r) := handler e in (t ++ t', r)
      else (t, inl e)
  | (t, inr a) => (t, inr a)
  end.

(** ** The world *)

Record World : Type := mkWorld {
  imports : option PyExc;                         (* the import cell *)
  getcwd : PyExc + Path;                          (* os.getcwd() *)
  listdir : Path -> PyExc + list string;          (* os.listdir(p) *)
  path_exists : Path -> bool;                     (* Path.exists(), os.path.exists(p) *)
  environ : gmap string string;                   (* os.environ when the kernel starts *)
  dotenv_values : Path -> PyExc + gmap string string; (* the variables python-dotenv parses from a file *)
  pdf_loader_init : Path -> option PyExc;         (* PyPDFLoader(file_path) *)
  pdf_load : Path -> PyExc + list Document;       (* loader.load() *)
  splitter_init : SplitterConfig -> option PyExc; (* RecursiveCharacterTextSplitter(...) *)
  split_documents : SplitterConfig -> list Document -> PyExc + list Document;
  embedder_init : string -> option PyExc;         (* OllamaEmbeddings(model=...) *)
  embed_query : string -> string -> PyExc + Vector;
  mongo_client : option string -> option PyExc;   (* MongoClient(uri, server_api=ServerApi("1")) *)
  ping : option string -> option PyExc;           (* client.admin.command("ping") *)
  vector_store_init : option PyExc                (* MongoDBAtlasVectorSearch(...) *)
}.

(** ** The kernel's globals

    Only what a later cell reads is kept: [os.environ], which the secrets
    cell extends, and the variables used across cells.  The library
    objects are kept as what they were built from. *)

Record Globals : Type := mkGlobals {
  os_environ : gmap string string;
  root_dir : option Path;
  docs : option (list Document);
  all_splits : option (list Document);
  embeddings_model : option string;          (* the model name *)
  client : option (option string);           (* the uri the client was built with *)
  MONGODB_COLLECTION : option (string * string)  (* database and collection name *)
}.

Definition initial (w : World) : Globals :=
  mkGlobals (environ w) None None None None None None.

Definition set_os_environ (v : gmap string string) (g : Globals) : Globals :=
  mkGlobals v (root_dir g) (docs g) (all_splits g) (embeddings_model g) (client g)
            (MONGODB_COLLECTION g).
Definition set_root_dir (v : Path) (g : Globals) : Globals :=
  mkGlobals (os_environ g) (Some v) (docs g) (all_splits g) (embeddings_model g) (client g)
            (MONGODB_COLLECTION g).
Definition set_docs (v : list Document) (g : Globals) : Globals :=
  mkGlobals (os_environ g) (root_dir g) (Some v) (all_splits g) (embeddings_model g) (client g)
            (MONGODB_COLLECTION g).
Definition set_all_splits (v : list Document) (g : Globals) : Globals :=
  mkGlobals (os_environ g) (root_dir g) (docs g) (Some v) (embeddings_model g) (client g)
            (MONGODB_COLLECTION g).
Definition set_embeddings_model (v : string) (g : Globals) : Globals :=
  mkGlobals (os_environ g) (root_dir g) (docs g) (all_splits g) (Some v) (client g)
            (MONGODB_COLLECTION g).
Definition set_client (v : option string) (g : Globals) : Globals :=
  mkGlobals (os_environ g) (root_dir g) (docs g) (all_splits g) (embeddings_model g) (Some v)
            (MONGODB_COLLECTION g).
Definition set_MONGODB_COLLECTION (v : string * string) (g : Globals) : Globals :=
  mkGlobals (os_environ g) (root_dir g) (docs g) (all_splits g) (embeddings_model g) (client g)
            (Some v).

(** ** The cells *)

Section Cells.

Variable w : World.

(** *** Imports *)

Definition cell_imports (g : Globals) : M PyExc Globals :=
  call_ ImportModules (imports w);;;
  ret g.

(** *** Set Project path

<<
for p in current_dir.parents:
    if ".git" in os.listdir(current_dir.parent) or ".project-root" in os.listdir(current_dir.parent):
        root_dir = current_dir.parent
        print(root_dir)
        break
else:
    raise Exception("No root directory was found that contains a .git directory")
>>
    The loop returns the loop variable [p] at the [break] and [root_dir]. *)

Definition no_root_msg : string :=
  "No root directory was found that contains a .git directory".

Fixpoint find_root (current_dir : Path) (ps : list Path) : M PyExc (Path * Path) :=
  match ps with
  | [] => raise (Exception_ no_root_msg)
  | p :: rest =>
      let found :=
        (let root := parent current_dir in
         print (OutPath root);;;
         ret (p, root)) in
      names <- call (Listdir (parent current_dir)) (listdir w (parent current_dir));;
      if bool_decide (".git" ∈ names) then found
      else
        names' <- call (Listdir (parent current_dir)) (listdir w (parent current_dir));;
        if bool_decide (".project-root" ∈ names') then found
        else find_root current_dir rest
  end.

Definition cell_project_path (g : Globals) : M PyExc Globals :=
  current_dir <- call Getcwd (getcwd w);;
  pr <- find_root current_dir (parents current_dir);;
  ret (set_root_dir (snd pr) g).

(** *** Load variables into env

<<
f = root_dir / ".secrets" / ".env"
assert f.exists(), f"File not found: {f}"
dotenv.load_dotenv(f)
>>
    [load_dotenv] does not override a variable that is already set. *)

Definition secrets_file (root : Path) : Path := joinpath root [".secrets"; ".env"].

Definition cell_secrets (g : Globals) : M PyExc Globals :=
  root <- global "root_dir" (root_dir g);;
  let f := secrets_file root in
  ok <- call (Exists f) (inr (path_exists w f));;
  assert_ ok (Some ("File not found: " +:+ path_str f));;;
  vars <- call (LoadDotenv f) (dotenv_values w f);;
  ret (set_os_environ (os_environ g ∪ vars) g).

(** *** The two sample documents (never read again) *)

Definition documents : list Document :=
  [ mkDocument "Dogs are great companions, known for their loyalty and friendliness."
               {[ "source" := MStr "mammal-pets-doc" ]} None;
    mkDocument "Cats are independent pets that often enjoy their own space."
               {[ "source" := MStr "mammal-pets-doc" ]} None ].

Definition cell_documents (g : Globals) : M PyExc Globals := ret g.

(** *** Document loader

<<
file_path = root_dir / "data" / "vmd_sample.pdf"
assert os.path.exists(file_path)
loader = PyPDFLoader(file_path)
docs = loader.load()
print(f"{len(docs)=}")
print("CONTENT")
print(f"{docs[37].page_content[:200]}\n")
print(docs[0].metadata)
>> *)

Definition source_file (root : Path) : Path := joinpath root ["data"; "vmd_sample.pdf"].

Definition cell_loader (g : Globals) : M PyExc Globals :=
  root <- global "root_dir" (root_dir g);;
  let file_path := source_file root in
  ok <- call (Exists file_path) (inr (path_exists w file_path));;
  assert_ ok None;;;
  call_ (LoaderInit file_path) (pdf_loader_init w file_path);;;
  ds <- call (LoaderLoad file_path) (pdf_load w file_path);;
  print (OutNat (length ds));;;
  print (OutStr "CONTENT");;;
  d37 <- index ds 37;;
  print (OutStr (String.substring 0 200 (page_content d37)));;;
  d0 <- index ds 0;;
  print (OutMeta (metadata d0));;;
  ret (set_docs ds g).

(** *** Splitting text

<<
text_splitter = RecursiveCharacterTextSplitter(chunk_size=1000, chunk_overlap=200, add_start_index=True)
all_splits = text_splitter.split_documents(docs)
len(all_splits)
>> *)

Definition splitter_config : SplitterConfig := mkSplitterConfig 1000 200 true.

Definition cell_split (g : Globals) : M PyExc Globals :=
  call_ (SplitterInit splitter_config) (splitter_init w splitter_config);;;
  ds <- global "docs" (docs g);;
  splits <- call (SplitDocuments splitter_config ds) (split_documents w splitter_config ds);;
  print (OutNat (length splits));;;
  ret (set_all_splits splits g).

(** *** Embeddings

<<
embeddings_model = OllamaEmbeddings(model="llama3.2")
>>
<<
vector_1 = embeddings_model.embed_query(all_splits[0].page_content)
vector_2 = embeddings_model.embed_query(all_splits[1].page_content)
print("Both embedding have same length:", len(vector_1) == len(vector_2))
print(f"Generated vectors of length {len(vector_1)}\n")
print(vector_1[:5])
>> *)

Definition model_name : string := "llama3.2".

Definition cell_embedder (g : Globals) : M PyExc Globals :=
  call_ (EmbedderInit model_name) (embedder_init w model_name);;;
  ret (set_embeddings_model model_name g).

Definition cell_embed_example (g : Globals) : M PyExc Globals :=
  model <- global "embeddings_model" (embeddings_model g);;
  splits <- global "all_splits" (all_splits g);;
  s0 <- index splits 0;;
  vector_1 <- call (EmbedQuery model (page_content s0)) (embed_query w model (page_content s0));;
  s1 <- index splits 1;;
  vector_2 <- call (EmbedQuery model (page_content s1)) (embed_query w model (page_content s1));;
  print (OutPair (OutStr "Both embedding have same length:")
                  (OutBool (bool_decide (length vector_1 = length vector_2))));;;
  print (OutNat (length vector_1));;;
  print (OutVec (take 5 vector_1));;;
  ret g.

(** *** Vector store

<<
uri = os.getenv("MONGODB_URI")
client = MongoClient(uri, server_api=ServerApi("1"))
try:
    client.admin.command("ping")
    print("Pinged your deployment. You successfully connected to MongoDB!")
except Exception as e:
    print(e)
>> *)

Definition uri_key : string := "MONGODB_URI".

Definition getenv (g : Globals) (key : string) : M PyExc (option string) :=
  call (Getenv key) (inr (os_environ g !! key)).

Definition cell_connect (g : Globals) : M PyExc Globals :=
  uri <- getenv g uri_key;;
  call_ (MongoClient uri) (mongo_client w uri);;;
  try_except
    (call_ (Ping uri) (ping w uri);;;
     print (OutStr "Pinged your deployment. You successfully connected to MongoDB!"))
    (fun e => print (OutExc e));;;
  ret (set_client uri g).

(**
<<
DB_NAME = "langchain_demo"
db = client[DB_NAME]
COLLECTION_NAME = "emp-policy"
MONGODB_COLLECTION = db[COLLECTION_NAME]
ATLAS_VECTOR_SEARCH_INDEX_NAME = "vector_index"
>> *)

Definition DB_NAME : string := "langchain_demo".
Definition COLLECTION_NAME : string := "emp-policy".
Definition ATLAS_VECTOR_SEARCH_INDEX_NAME : string := "vector_index".

Definition cell_names (g : Globals) : M PyExc Globals :=
  _ <- global "client" (client g);;
  ret (set_MONGODB_COLLECTION (DB_NAME, COLLECTION_NAME) g).

(**
<<
vector_store = MongoDBAtlasVectorSearch(
    embedding=embeddings_model, collection=MONGODB_COLLECTION,
    index_name=ATLAS_VECTOR_SEARCH_INDEX_NAME, relevance_score_fn="cosine")
>> *)

Definition cell_vector_store (g : Globals) : M PyExc Globals :=
  model <- global "embeddings_model" (embeddings_model g);;
  coll <- global "MONGODB_COLLECTION" (MONGODB_COLLECTION g);;
  call_ (VectorStoreInit model (fst coll) (snd coll) ATLAS_VECTOR_SEARCH_INDEX_NAME "cosine")
        (vector_store_init w);;;
  ret g.

(** ** Running the notebook *)

Inductive Cell : Type :=
| CellImports | CellProjectPath | CellSecrets | CellDocuments | CellLoader | CellSplit
| CellEmbedder | CellEmbedExample | CellConnect | CellNames | CellVectorStore.

Definition exec (c : Cell) : Globals -> M PyExc Globals :=
  match c with
  | CellImports => cell_imports
  | CellProjectPath => cell_project_path
  | CellSecrets => cell_secrets
  | CellDocuments => cell_documents
  | CellLoader => cell_loader
  | CellSplit => cell_split
  | CellEmbedder => cell_embedder
  | CellEmbedExample => cell_embed_example
  | CellConnect => cell_connect
  | CellNames => cell_names
  | CellVectorStore => cell_vector_store
  end.

(** An exception that leaves a cell is reported with the cell. *)
Definition in_cell {A} (c : Cell) (m : M PyExc A) : M (Cell * PyExc) A :=
  match m with
  | (t, inl e) => (t, inl (c, e))
  | (t, inr a) => (t, inr a)
  end.

(** Cells run in order in one kernel; the first exception that leaves a
    cell ends the run. *)
Fixpoint run_cells (cs : list Cell) (g : Globals) : M (Cell * PyExc) Globals :=
  match cs with
  | [] => ret g
  | c :: rest => g' <- in_cell c (exec c g);; run_cells rest g'
  end.

Definition notebook : list Cell :=
  [CellImports; CellProjectPath; CellSecrets; CellDocuments; CellLoader; CellSplit;
   CellEmbedder; CellEmbedExample; CellConnect; CellNames; CellVectorStore].

Definition run_all : M (Cell * PyExc) Globals := run_cells notebook (initial w).

End Cells.

(** * Reading runs

    What the properties below say about a run: which calls a cell can
    issue, what a cell does to the globals, the kinds of calls, the
    exceptions that are handled, and some worlds to run the notebook in. *)

(** ** Which external calls a cell can issue *)

Definition may_call (c : Cell) (x : extcall) : bool :=
  match c, x with
  | CellImports, ImportModules => true
  | CellProjectPath, (Getcwd | Listdir _) => true
  | CellSecrets, (Exists _ | LoadDotenv _) => true
  | CellLoader, (Exists _ | LoaderInit _ | LoaderLoad _) => true
  | CellSplit, (SplitterInit _ | SplitDocuments _ _) => true
  | CellEmbedder, EmbedderInit _ => true
  | CellEmbedExample, EmbedQuery _ _ => true
  | CellConnect, Getenv key => bool_decide (key = uri_key)
  | CellConnect, (MongoClient _ | Ping _) => true
  | CellVectorStore, VectorStoreInit _ _ _ _ _ => true
  | _, _ => false
  end.

(** ** What a cell that ends normally has done to the globals *)

Definition effect (w : World) (c : Cell) (g g' : Globals) : Prop :=
  match c with
  | CellImports | CellDocuments | CellEmbedExample | CellVectorStore => g' = g
  | CellProjectPath =>
      exists current_dir,
        getcwd w = inr current_dir /\ g' = set_root_dir (parent current_dir) g
  | CellSecrets =>
      exists root vars,
        root_dir g = Some root /\
        path_exists w (secrets_file root) = true /\
        dotenv_values w (secrets_file root) = inr vars /\
        g' = set_os_environ (os_environ g ∪ vars) g
  | CellLoader => exists ds, g' = set_docs ds g
  | CellSplit => exists splits, g' = set_all_splits splits g
  | CellEmbedder => g' = set_embeddings_model model_name g
  | CellConnect => g' = set_client (os_environ g !! uri_key) g
  | CellNames => g' = set_MONGODB_COLLECTION (DB_NAME, COLLECTION_NAME) g
  end.

(** ** Kinds of calls *)

Definition loads_documents (x : extcall) : bool :=
  match x with
  | LoaderInit _ | LoaderLoad _ => true
  | _ => false
  end.

Definition calls_embedder (x : extcall) : bool :=
  match x with
  | EmbedderInit _ | EmbedQuery _ _ => true
  | _ => false
  end.

(** Every use of the vector store: the client, the ping and the store
    object.  The notebook has no call that writes to the index. *)
Definition calls_vector_store (x : extcall) : bool :=
  match x with
  | MongoClient _ | Ping _ | VectorStoreInit _ _ _ _ _ => true
  | _ => false
  end.

(** ** Reading a trace *)

Definition getenv_keys (t : trace) : list string :=
  omap (fun ev => match ev with Call (Getenv key) => Some key | _ => None end) t.

Definition client_uris (t : trace) : list (option string) :=
  omap (fun ev => match ev with Call (MongoClient uri) => Some uri | _ => None end) t.

Definition raised (t : trace) : list PyExc :=
  omap (fun ev => match ev with Raise e => Some e | _ => None end) t.

(** ** The cells before and from the connection to the vector store *)

Definition before_connect : list Cell :=
  [CellImports; CellProjectPath; CellSecrets; CellDocuments; CellLoader; CellSplit;
   CellEmbedder; CellEmbedExample].

Definition from_connect : list Cell := [CellConnect; CellNames; CellVectorStore].

(** ** Handled and surfacing exceptions *)

(** Traces in which every raise is the ping's: an [Exception], raised by
    the ping, followed by the handler's print of it. *)
Inductive handled : trace -> Prop :=
| handled_nil : handled []
| handled_call c t : handled t -> handled (Call c :: t)
| handled_out o t : handled t -> handled (Out o :: t)
| handled_ping uri e t :
    is_Exception e = true -> handled t ->
    handled (Call (Ping uri) :: Raise e :: Out (OutExc e) :: t).

(** A computation whose raises are all handled, but the one it ends
    with, if it ends with an exception. *)
Definition surfaces {E A} (exc : E -> PyExc) (m : M E A) : Prop :=
  match m with
  | (t, inr _) => handled t
  | (t, inl e) => exists t', t = t' ++ [Raise (exc e)] /\ handled t'
  end.

(** Inside a cell the exception surfaces as it was raised. *)
Abbreviation raw := (@Datatypes.id PyExc).

(** ** Sample worlds *)

Definition lib_error (cls : string) : PyExc := LibError cls "".

(** A project at [/home/u/rag] with the kernel started in [src]; [ls]
    lists directories, [present] says which files exist, [env] is the
    process environment, [vars] the content of the secrets file and
    [pong] what the ping answers. *)
Definition sample_world (ls : Path -> PyExc + list string) (present : Path -> bool)
    (env vars : gmap string string) (pong : option PyExc) : World :=
  {| imports := None;
     getcwd := inr ["home"; "u"; "rag"; "src"];
     listdir := ls;
     path_exists := present;
     environ := env;
     dotenv_values := fun _ => inr vars;
     pdf_loader_init := fun _ => None;
     pdf_load := fun _ => inr (replicate 38 (mkDocument "page" ∅ None));
     splitter_init := fun _ => None;
     split_documents := fun _ _ =>
       inr [mkDocument "pa" ∅ None; mkDocument "ge" ∅ None];
     embedder_init := fun _ => None;
     embed_query := fun _ _ => inr [0%float; 1%float];
     mongo_client := fun _ => None;
     ping := fun _ => pong;
     vector_store_init := None |}.

Definition ls_project (p : Path) : PyExc + list string :=
  if bool_decide (p = ["home"; "u"; "rag"]) then inr [".git"; ".secrets"; "data"; "src"]
  else if bool_decide (p = ["home"; "u"; "rag"; "src"]) then inr ["Indexing-tutorial.ipynb"]
  else inl (lib_error "FileNotFoundError").

Definition everything_present (p : Path) : bool := true.

Definition all_but (missing : Path) (p : Path) : bool := bool_decide (p ≠ missing).

(** ** When a cell ends normally

    What the world has to answer, and the globals have to hold, for a
    cell to end without an exception, and the globals it leaves. *)

Definition step (w : World) (c : Cell) (g g' : Globals) : Prop :=
  match c with
  | CellImports => imports w = None /\ g' = g
  | CellProjectPath =>
      exists current_dir names,
        getcwd w = inr current_dir /\ current_dir <> [] /\
        listdir w (parent current_dir) = inr names /\
        (".git" ∈ names \/ ".project-root" ∈ names) /\
        g' = set_root_dir (parent current_dir) g
  | CellSecrets =>
      exists root vars,
        root_dir g = Some root /\
        path_exists w (secrets_file root) = true /\
        dotenv_values w (secrets_file root) = inr vars /\
        g' = set_os_environ (os_environ g ∪ vars) g
  | CellDocuments => g' = g
  | CellLoader =>
      exists root pages,
        root_dir g = Some root /\
        path_exists w (source_file root) = true /\
        pdf_loader_init w (source_file root) = None /\
        pdf_load w (source_file root) = inr pages /\
        38 <= length pages /\
        g' = set_docs pages g
  | CellSplit =>
      exists pages splits,
        docs g = Some pages /\
        splitter_init w splitter_config = None /\
        split_documents w splitter_config pages = inr splits /\
        g' = set_all_splits splits g
  | CellEmbedder =>
      embedder_init w model_name = None /\ g' = set_embeddings_model model_name g
  | CellEmbedExample =>
      exists model splits s0 s1 v1 v2,
        embeddings_model g = Some model /\
        all_splits g = Some splits /\
        splits !! 0 = Some s0 /\ splits !! 1 = Some s1 /\
        embed_query w model (page_content s0) = inr v1 /\
        embed_query w model (page_content s1) = inr v2 /\
        g' = g
  | CellConnect =>
      let uri := os_environ g !! uri_key in
      mongo_client w uri = None /\
      (forall e, ping w uri = Some e -> is_Exception e = true) /\
      g' = set_client uri g
  | CellNames =>
      is_Some (client g) /\ g' = set_MONGODB_COLLECTION (DB_NAME, COLLECTION_NAME) g
  | CellVectorStore =>
      is_Some (embeddings_model g) /\ is_Some (MONGODB_COLLECTION g) /\
      vector_store_init w = None /\ g' = g
  end.

(** ** The worlds in which the notebook runs to its end *)

Definition completes (w : World) : Prop :=
  exists current_dir names vars pages splits s0 s1 v1 v2,
    let root := parent current_dir in
    let uri := (environ w ∪ vars) !! uri_key in
    imports w = None /\
    getcwd w = inr current_dir /\ current_dir <> [] /\
    listdir w root = inr names /\
    (".git" ∈ names \/ ".project-root" ∈ names) /\
    path_exists w (secrets_file root) = true /\
    dotenv_values w (secrets_file root) = inr vars /\
    path_exists w (source_file root) = true /\
    pdf_loader_init w (source_file root) = None /\
    pdf_load w (source_file root) = inr pages /\
    38 <= length pages /\
    splitter_init w splitter_config = None /\
    split_documents w splitter_config pages = inr splits /\
    embedder_init w model_name = None /\
    splits !! 0 = Some s0 /\ splits !! 1 = Some s1 /\
    embed_query w model_name (page_content s0) = inr v1 /\
    embed_query w model_name (page_content s1) = inr v2 /\
    mongo_client w uri = None /\
    (forall e, ping w uri = Some e -> is_Exception e = true) /\
    vector_store_init w = None.

(** ** The globals a cell reads *)


(** ** The exceptions of a run

    The exception the world answers a call with, if it does. *)




(** The embedding queries of a trace: model and text. *)
Definition embed_calls (t : trace) : list (string * string) :=
  omap (fun ev => match ev with
                  | Call (EmbedQuery model text) => Some (model, text)
                  | _ => None
                  end) t.

(** The same world with another answer to the ping. *)
Definition set_ping (pong : option string -> option PyExc) (w : World) : World :=
  mkWorld (imports w) (getcwd w) (listdir w) (path_exists w) (environ w)
          (dotenv_values w) (pdf_loader_init w) (pdf_load w) (splitter_init w)
          (split_documents w) (embedder_init w) (embed_query w) (mongo_client w)
          pong (vector_store_init w).

(** The sample project with a given PDF and given chunks. *)
Definition library_world (pages splits : list Document) (pong : option PyExc) : World :=
  {| imports := None;
     getcwd := inr ["home"; "u"; "rag"; "src"];
     listdir := ls_project;
     path_exists := everything_present;
     environ := ∅;
     dotenv_values := fun _ => inr {[ "MONGODB_URI" := "mongodb://db.example" ]};
     pdf_loader_init := fun _ => None;
     pdf_load := fun _ => inr pages;
     splitter_init := fun _ => None;
     split_documents := fun _ _ => inr splits;
     embedder_init := fun _ => None;
     embed_query := fun _ text => inr [0%float];
     mongo_client := fun _ => None;
     ping := fun _ => pong;
     vector_store_init := None |}.

Definition page (text : string) : Document := mkDocument text ∅ None.

(** * Properties *)

(** ** The monad *)

Section Monad.

Context {E A B : Type}.

Lemma bind_inl (m : M E A) (k : A -> M E B) t e :
  m = (t, inl e) -> bind m k = (t, inl e).
Proof. by intros ->. Qed.

Lemma bind_inr (m : M E A) (k : A -> M E B) t a :
  m = (t, inr a) -> bind m k = (t ++ fst (k a), snd (k a)).
Proof. intros ->. simpl. by destruct (k a). Qed.

Lemma bind_inr_inv (m : M E A) (k : A -> M E B) t b :
  bind m k = (t, inr b) ->
  exists t1 a t2, m = (t1, inr a) /\ k a = (t2, inr b) /\ t = t1 ++ t2.
Proof.
  destruct m as [t1 [e|a]]; simpl; [done|].
  destruct (k a) as [t2 r] eqn:Hk. intros [= <- ->]. by exists t1, a, t2.
Qed.

End Monad.

(** Case analysis on the membership of an event in an explicit trace. *)
Ltac split_elem H :=
  repeat match type of H with
  | _ ∈ [] => by apply elem_of_nil in H
  | _ ∈ _ :: _ => apply elem_of_cons in H as [H|H]
  | _ ∈ _ ++ _ => apply elem_of_app in H as [H|H]
  end.

(** ** The loop that looks for the project root *)

Lemma parents_length p : length (parents p) = length p.
Proof.
  unfold parents. generalize (length p) as n. intros n. revert p.
  induction n as [|n IH]; intros p; simpl; [done|]. by rewrite IH.
Qed.

Lemma parents_nonempty p : p <> [] -> exists rest, parents p = parent p :: rest.
Proof.
  unfold parents. destruct p as [|x p]; [done|]. intros _. simpl length.
  by eexists.
Qed.

Section FindRoot.

Variable w : World.

(** One iteration: what the loop does with a non-empty list of ancestors
    depends on the listing of [current_dir.parent] alone. *)
Lemma find_root_cons cur p rest :
  find_root w cur (p :: rest) =
    match listdir w (parent cur) with
    | inl e => ([Call (Listdir (parent cur)); Raise e], inl e)
    | inr names =>
        if bool_decide (".git" ∈ names)
        then ([Call (Listdir (parent cur)); Out (OutPath (parent cur))],
              inr (p, parent cur))
        else if bool_decide (".project-root" ∈ names)
        then ([Call (Listdir (parent cur)); Call (Listdir (parent cur));
               Out (OutPath (parent cur))],
              inr (p, parent cur))
        else (Call (Listdir (parent cur)) :: Call (Listdir (parent cur)) ::
                fst (find_root w cur rest),
              snd (find_root w cur rest))
    end.
Proof.
  simpl. destruct (listdir w (parent cur)) as [e|names]; simpl; [done|].
  destruct (bool_decide (".git" ∈ names)); simpl; [done|].
  destruct (bool_decide (".project-root" ∈ names)); simpl; [done|].
  by destruct (find_root w cur rest).
Qed.

(** Without a marker in the parent's listing no iteration breaks, however
    many ancestors there are: the [else] of the loop raises. *)
Lemma find_root_no_marker cur names ps :
  listdir w (parent cur) = inr names ->
  ".git" ∉ names -> ".project-root" ∉ names ->
  snd (find_root w cur ps) = inl (Exception_ no_root_msg).
Proof.
  intros Hl Hgit Hpr. induction ps as [|p rest IH]; [done|].
  rewrite find_root_cons, Hl.
  by rewrite !bool_decide_eq_false_2.
Qed.

(** Every external call of the loop lists [current_dir.parent]. *)
Lemma find_root_calls cur ps c :
  Call c ∈ fst (find_root w cur ps) -> c = Listdir (parent cur).
Proof.
  induction ps as [|p rest IH].
  - simpl. by intros [=]%list_elem_of_singleton.
  - rewrite find_root_cons. intros Hin.
    destruct (listdir w (parent cur)) as [e|names]; simpl in Hin.
    { split_elem Hin; congruence. }
    repeat case_bool_decide; simpl in Hin; split_elem Hin; try congruence.
    by apply IH.
Qed.

(** The loop at its exit: an exception, or the first ancestor as [p] and
    [current_dir.parent] as root, with a marker in the parent's listing. *)
Lemma find_root_result cur ps p root :
  snd (find_root w cur ps) = inr (p, root) ->
  root = parent cur /\ head ps = Some p /\
  exists names, listdir w (parent cur) = inr names /\
                (".git" ∈ names \/ ".project-root" ∈ names).
Proof.
  destruct ps as [|p0 rest]; [done|].
  rewrite find_root_cons.
  destruct (listdir w (parent cur)) as [e|names] eqn:Hl; simpl; [done|].
  destruct (decide (".git" ∈ names)) as [Hgit|Hgit].
  { rewrite bool_decide_eq_true_2 by done. intros [= <- <-]. eauto 6. }
  rewrite bool_decide_eq_false_2 by done.
  destruct (decide (".project-root" ∈ names)) as [Hpr|Hpr].
  { rewrite bool_decide_eq_true_2 by done. intros [= <- <-]. eauto 6. }
  rewrite bool_decide_eq_false_2 by done. simpl.
  by rewrite (find_root_no_marker cur names rest).
Qed.



End FindRoot.


(** ** Tactics for runs *)

(** Case analysis on every scrutinee in a hypothesis, innermost first. *)
Ltac case_hyp H :=
  repeat match type of H with
  | context [match ?y with _ => _ end] =>
      lazymatch y with
      | context [match _ with _ => _ end] => fail
      | _ => destruct y eqn:?; simpl in H
      end
  end.

Ltac unfold_cell :=
  unfold cell_imports, cell_project_path, cell_secrets, cell_documents, cell_loader,
    cell_split, cell_embedder, cell_embed_example, cell_connect, cell_names,
    cell_vector_store, getenv, try_except, call_, call, print, assert_, index,
    global, raise, emit, bind, ret in *.

(** ** Cells and runs *)

Section Run.

Variable w : World.

Lemma run_cells_app cs1 cs2 g :
  run_cells w (cs1 ++ cs2) g = bind (run_cells w cs1 g) (run_cells w cs2).
Proof.
  revert g. induction cs1 as [|c cs1 IH]; intros g; simpl.
  - by destruct (run_cells w cs2 g).
  - destruct (exec w c g) as [t [e|g1]]; simpl; [done|].
    rewrite IH. destruct (run_cells w cs1 g1) as [t1 [e|g2]]; simpl; [done|].
    destruct (run_cells w cs2 g2) as [t2 r]. by rewrite app_assoc.
Qed.

Lemma run_cells_cons_inv c cs g t g' :
  run_cells w (c :: cs) g = (t, inr g') ->
  exists t1 g1 t2,
    exec w c g = (t1, inr g1) /\ run_cells w cs g1 = (t2, inr g') /\ t = t1 ++ t2.
Proof.
  simpl. intros (t1 & g1 & t2 & Hc & Hcs & ->)%bind_inr_inv.
  exists t1, g1, t2. split_and!; try done.
  by destruct (exec w c g) as [? [?|?]]; simplify_eq/=.
Qed.

Lemma exec_may_call c g x :
  Call x ∈ fst (exec w c g) -> may_call c x = true.
Proof.
  intros Hin. destruct c; simpl in Hin; unfold_cell;
    case_hyp Hin; split_elem Hin; simplify_eq/=; try done.
  all: match goal with
  | H : find_root _ _ _ = _ |- _ =>
      apply (f_equal fst) in H; simpl in H; rewrite <- H in Hin;
      by apply find_root_calls in Hin as ->
  end.
Qed.

Lemma run_cells_may_call cs g x :
  Call x ∈ fst (run_cells w cs g) -> exists c, c ∈ cs /\ may_call c x = true.
Proof.
  revert g. induction cs as [|c cs IH]; intros g; simpl.
  { by intros ?%elem_of_nil. }
  pose proof (exec_may_call c g x) as Hc.
  destruct (exec w c g) as [t [e|g1]]; simpl in *.
  { intros Hin. exists c. split; [left|]; auto. }
  specialize (IH g1). destruct (run_cells w cs g1) as [t' r]; simpl in *.
  intros [Hin|Hin]%elem_of_app.
  - exists c. split; [left|]; auto.
  - destruct (IH Hin) as (c' & ? & ?). exists c'. split; [by right|done].
Qed.

Lemma exec_effect c g t g' :
  exec w c g = (t, inr g') -> effect w c g g'.
Proof.
  intros Hrun. destruct c; simpl in *; unfold_cell;
    case_hyp Hrun; simplify_eq/=; eauto 10.
  match goal with
  | H : find_root _ _ _ = (_, inr ?pr) |- _ =>
      destruct pr as [p' root]; apply (f_equal snd) in H; simpl in H;
      apply find_root_result in H as (-> & _); eauto
  end.
Qed.

End Run.

(** ** Failing before the pipeline does any work *)

(** C10. When [<root_dir>/.secrets/.env] does not exist, the run ends in
    the secrets cell with the [AssertionError] of [assert f.exists()],
    raised right after the existence check; no document has been loaded,
    no embedding call made and no vector-store connection opened. *)
Theorem missing_secrets_file_aborts_run
    (w : World) (t : trace) (g : Globals) (root : Path) :
  run_cells w [CellImports; CellProjectPath] (initial w) = (t, inr g) ->
  root_dir g = Some root ->
  path_exists w (secrets_file root) = false ->
  let f := secrets_file root in
  let e := AssertionError (Some ("File not found: " +:+ path_str f)) in
  run_all w = (t ++ [Call (Exists f); Raise e], inl (CellSecrets, e)) /\
  forall x, Call x ∈ fst (run_all w) ->
    loads_documents x = false /\ calls_embedder x = false /\
    calls_vector_store x = false.
Proof.
  intros Hpre Hroot Hmissing f e.
  assert (Hrun : run_all w = (t ++ [Call (Exists f); Raise e], inl (CellSecrets, e))).
  { unfold run_all, notebook.
    change (run_cells w ([CellImports; CellProjectPath] ++
              [CellSecrets; CellDocuments; CellLoader; CellSplit; CellEmbedder;
               CellEmbedExample; CellConnect; CellNames; CellVectorStore])
              (initial w) = (t ++ [Call (Exists f); Raise e], inl (CellSecrets, e))).
    rewrite run_cells_app, Hpre. simpl.
    unfold cell_secrets. rewrite Hroot. simpl.
    fold (secrets_file root). by rewrite Hmissing. }
  split; [done|]. rewrite Hrun. simpl. intros x Hin.
  apply elem_of_app in Hin as [Hin|Hin].
  - change t with (fst (t, @inr (Cell * PyExc) _ g)) in Hin. rewrite <- Hpre in Hin.
    apply run_cells_may_call in Hin as (c & Hc & Hmay).
    split_elem Hc; subst c; by destruct x.
  - split_elem Hin; by simplify_eq.
Qed.

(** C8. When the source file [<root_dir>/data/vmd_sample.pdf] does not
    exist, the run ends in the loader cell: the notebook's source-not-found
    failure is the [AssertionError] of [assert os.path.exists(file_path)],
    raised right after the existence check and before the loader is built.
    No embedding call and no vector-store call (so no index write) is in
    the run. *)
Theorem missing_source_file_aborts_run
    (w : World) (t : trace) (g : Globals) (root : Path) :
  run_cells w [CellImports; CellProjectPath; CellSecrets; CellDocuments] (initial w)
    = (t, inr g) ->
  root_dir g = Some root ->
  path_exists w (source_file root) = false ->
  let file_path := source_file root in
  run_all w = (t ++ [Call (Exists file_path); Raise (AssertionError None)],
               inl (CellLoader, AssertionError None)) /\
  forall x, Call x ∈ fst (run_all w) ->
    loads_documents x = false /\ calls_embedder x = false /\
    calls_vector_store x = false.
Proof.
  intros Hpre Hroot Hmissing file_path.
  assert (Hrun : run_all w =
            (t ++ [Call (Exists file_path); Raise (AssertionError None)],
             inl (CellLoader, AssertionError None))).
  { unfold run_all, notebook.
    change (run_cells w ([CellImports; CellProjectPath; CellSecrets; CellDocuments] ++
              [CellLoader; CellSplit; CellEmbedder;
               CellEmbedExample; CellConnect; CellNames; CellVectorStore])
              (initial w) =
            (t ++ [Call (Exists file_path); Raise (AssertionError None)],
             inl (CellLoader, AssertionError None))).
    rewrite run_cells_app, Hpre. simpl.
    unfold cell_loader. rewrite Hroot. simpl.
    fold (source_file root). by rewrite Hmissing. }
  split; [done|]. rewrite Hrun. simpl. intros x Hin.
  apply elem_of_app in Hin as [Hin|Hin].
  - change t with (fst (t, @inr (Cell * PyExc) _ g)) in Hin. rewrite <- Hpre in Hin.
    apply run_cells_may_call in Hin as (c & Hc & Hmay).
    split_elem Hc; subst c; by destruct x.
  - split_elem Hin; by simplify_eq.
Qed.

(** ** The connection string *)

Lemma notebook_split : notebook = before_connect ++ from_connect.
Proof. reflexivity. Qed.

Section Connect.

Variable w : World.

(** The globals when the connect cell starts. *)
Lemma globals_before_connect t g :
  run_cells w before_connect (initial w) = (t, inr g) ->
  exists current_dir vars ds splits,
    getcwd w = inr current_dir /\
    dotenv_values w (secrets_file (parent current_dir)) = inr vars /\
    g = mkGlobals (environ w ∪ vars) (Some (parent current_dir)) (Some ds)
                  (Some splits) (Some model_name) None None.
Proof.
  unfold before_connect. intros Hrun.
  repeat match goal with
  | H : run_cells w (_ :: _) _ = (_, inr _) |- _ =>
      apply run_cells_cons_inv in H as (? & ? & ? & ?%exec_effect & H & ->)
  end.
  simpl in *. destruct_and?. repeat match goal with H : ex _ |- _ => destruct H end.
  destruct_and?. simplify_eq/=. injection Hrun as <- <-. eauto 10.
Qed.

(** Calls of the cells before the connect cell. *)
Lemma before_connect_calls g x :
  Call x ∈ fst (run_cells w before_connect g) ->
  match x with
  | Getenv _ | MongoClient _ | Ping _ | VectorStoreInit _ _ _ _ _ => False
  | _ => True
  end.
Proof.
  intros (c & Hc & Hmay)%run_cells_may_call.
  unfold before_connect in Hc. split_elem Hc; subst c; by destruct x.
Qed.

(** The run from the connect cell on, by what the client, the ping and
    the vector store answer. *)
Lemma run_from_connect g :
  embeddings_model g = Some model_name ->
  let uri := os_environ g !! uri_key in
  let store := Call (VectorStoreInit model_name DB_NAME COLLECTION_NAME
                       ATLAS_VECTOR_SEARCH_INDEX_NAME "cosine") in
  let finish (t : trace) : M (Cell * PyExc) Globals :=
    match vector_store_init w with
    | Some e => (t ++ [store; Raise e], inl (CellVectorStore, e))
    | None =>
        (t ++ [store],
         inr (set_MONGODB_COLLECTION (DB_NAME, COLLECTION_NAME) (set_client uri g)))
    end in
  run_cells w from_connect g =
    match mongo_client w uri with
    | Some e => ([Call (Getenv uri_key); Call (MongoClient uri); Raise e],
                 inl (CellConnect, e))
    | None =>
        match ping w uri with
        | None =>
            finish [Call (Getenv uri_key); Call (MongoClient uri); Call (Ping uri);
                    Out (OutStr "Pinged your deployment. You successfully connected to MongoDB!")]
        | Some e =>
            if is_Exception e
            then finish [Call (Getenv uri_key); Call (MongoClient uri); Call (Ping uri);
                         Raise e; Out (OutExc e)]
            else ([Call (Getenv uri_key); Call (MongoClient uri); Call (Ping uri); Raise e],
                  inl (CellConnect, e))
        end
    end.
Proof.
  intros Hmodel. simpl. unfold_cell. simpl.
  destruct (mongo_client w _) as [e|]; simpl; [done|].
  destruct (ping w _) as [e|]; simpl.
  - destruct (is_Exception e); simpl; [|done].
    rewrite Hmodel. simpl. by destruct (vector_store_init w).
  - rewrite Hmodel. simpl. by destruct (vector_store_init w).
Qed.

End Connect.

(** C7, as the code has it.  The only environment key the notebook reads
    is [MONGODB_URI], and the string handed to [MongoClient] is the value
    of that key ([None] when unset) in the environment after the secrets
    file has been loaded into it, where a variable already set in the
    process keeps its value. *)
Theorem connection_string_is_read_from_MONGODB_URI (w : World) :
  (forall key, Call (Getenv key) ∈ fst (run_all w) -> key = "MONGODB_URI") /\
  (forall uri, Call (MongoClient uri) ∈ fst (run_all w) ->
     exists current_dir vars,
       getcwd w = inr current_dir /\
       dotenv_values w (secrets_file (parent current_dir)) = inr vars /\
       uri = (environ w ∪ vars) !! "MONGODB_URI").
Proof.
  split.
  - intros key (c & _ & Hmay)%run_cells_may_call.
    destruct c; simpl in Hmay; try done. by apply bool_decide_eq_true in Hmay.
  - intros uri. unfold run_all. rewrite notebook_split, run_cells_app.
    pose proof (before_connect_calls w (initial w) (MongoClient uri)) as Hbefore.
    destruct (run_cells w before_connect (initial w)) as [t [e|g]] eqn:Hpre;
      simpl in Hbefore.
    { intros Hin. by destruct Hbefore. }
    apply globals_before_connect in Hpre
      as (current_dir & vars & ds & splits & Hcwd & Hvars & ->).
    erewrite bind_inr by done. rewrite run_from_connect by done. cbn [fst].
    intros Hin. apply elem_of_app in Hin as [Hin|Hin]; [by destruct Hbefore|].
    clear Hbefore. simpl in Hin. exists current_dir, vars. split_and!; try done.
    case_hyp Hin; split_elem Hin; by simplify_eq/=.
Qed.

(** C7 as the spec words it fails: with [CONNECTION_URI] set, in the
    process and in the secrets file, and [MONGODB_URI] unset, the notebook
    never looks [CONNECTION_URI] up and builds its client with no
    connection string. *)
Lemma CONNECTION_URI_is_not_read :
  let env : gmap string string := {[ "CONNECTION_URI" := "mongodb://db.example" ]} in
  let w := sample_world ls_project everything_present env env None in
  (environ w ∪ env) !! "CONNECTION_URI" = Some "mongodb://db.example" /\
  getenv_keys (fst (run_all w)) = ["MONGODB_URI"] /\
  client_uris (fst (run_all w)) = [None].
Proof. vm_compute. done. Qed.

(** ** Which exceptions are caught *)

Create HintDb surfaces.
#[local] Hint Constructors handled : surfaces.

Lemma handled_app t1 t2 : handled t1 -> handled t2 -> handled (t1 ++ t2).
Proof. induction 1; simpl; auto with surfaces. Qed.

Lemma handled_raise_inv t pre e post :
  handled t -> t = pre ++ Raise e :: post ->
  is_Exception e = true /\
  exists uri pre' post', pre = pre' ++ [Call (Ping uri)] /\ post = Out (OutExc e) :: post'.
Proof.
  intros Ht. revert pre. induction Ht as [|c t Ht IH|o t Ht IH|uri e0 t He0 Ht IH];
    intros pre Heq.
  - by destruct pre.
  - destruct pre as [|ev pre]; simplify_eq/=.
    destruct (IH pre eq_refl) as (He & uri & pre' & post' & -> & ->).
    split; [done|]. by exists uri, (Call c :: pre'), post'.
  - destruct pre as [|ev pre]; simplify_eq/=.
    destruct (IH pre eq_refl) as (He & uri & pre' & post' & -> & ->).
    split; [done|]. by exists uri, (Out o :: pre'), post'.
  - destruct pre as [|ev1 [|ev2 [|ev3 pre]]]; simplify_eq/=.
    + split; [done|]. by exists uri, [], t.
    + destruct (IH pre eq_refl) as (He & uri' & pre' & post' & -> & ->).
      split; [done|].
      by exists uri', (Call (Ping uri) :: Raise e0 :: Out (OutExc e0) :: pre'), post'.
Qed.

Section Surfaces.

Context {E : Type} (exc : E -> PyExc).

Lemma surfaces_ret {A} (a : A) : surfaces exc (ret a).
Proof. simpl. constructor. Qed.

Lemma surfaces_bind {A B} (m : M E A) (k : A -> M E B) :
  surfaces exc m -> (forall a, surfaces exc (k a)) -> surfaces exc (bind m k).
Proof.
  destruct m as [t [e|a]]; simpl; [done|]. intros Ht Hk. specialize (Hk a).
  destruct (k a) as [t' [e|b]]; simpl in *.
  - destruct Hk as (t'' & -> & Ht''). exists (t ++ t''). split.
    + by rewrite app_assoc.
    + by apply handled_app.
  - by apply handled_app.
Qed.

End Surfaces.

Lemma surfaces_raise {A} e : surfaces raw (@raise A e).
Proof. simpl. exists []. split; [done|constructor]. Qed.

Lemma surfaces_call {A} c (answer : PyExc + A) : surfaces raw (call c answer).
Proof.
  destruct answer as [e|a]; simpl.
  - exists [Call c]. split; [done|]. auto with surfaces.
  - auto with surfaces.
Qed.

Lemma surfaces_call_ c answer : surfaces raw (call_ c answer).
Proof. apply surfaces_call. Qed.

Lemma surfaces_print o : surfaces raw (print o).
Proof. simpl. auto with surfaces. Qed.

Lemma surfaces_assert cond msg : surfaces raw (assert_ cond msg).
Proof. destruct cond; [apply surfaces_ret|apply surfaces_raise]. Qed.

Lemma surfaces_index {A} (l : list A) i : surfaces raw (index l i).
Proof. unfold index. destruct (l !! i); [apply surfaces_ret|apply surfaces_raise]. Qed.

Lemma surfaces_global {A} name (v : option A) : surfaces raw (global name v).
Proof. destruct v; [apply surfaces_ret|apply surfaces_raise]. Qed.

(** The one handler of the notebook. *)
Lemma surfaces_try_ping uri answer s :
  surfaces raw (try_except (call_ (Ping uri) answer;;; print (OutStr s))
                          (fun e => print (OutExc e))).
Proof.
  destruct answer as [e|]; simpl; [|auto with surfaces].
  destruct (is_Exception e) eqn:He; simpl.
  - auto with surfaces.
  - exists [Call (Ping uri)]. split; [done|]. auto with surfaces.
Qed.

#[local] Hint Resolve surfaces_ret surfaces_raise surfaces_call surfaces_call_
  surfaces_print surfaces_assert surfaces_index surfaces_global surfaces_try_ping
  : surfaces.

Ltac surfaces :=
  repeat first
    [ solve [auto with surfaces]
    | apply surfaces_bind; [|intros ?] ].

Section SurfacesRun.

Variable w : World.

Lemma surfaces_find_root cur ps : surfaces raw (find_root w cur ps).
Proof.
  induction ps as [|p rest IH]; [apply surfaces_raise|].
  cbn [find_root]. cbv zeta.
  apply surfaces_bind; [auto with surfaces|intros names].
  case_bool_decide; [surfaces|].
  apply surfaces_bind; [auto with surfaces|intros names'].
  case_bool_decide; [surfaces|apply IH].
Qed.

Lemma surfaces_exec c g : surfaces raw (exec w c g).
Proof.
  destruct c; cbn [exec]; unfold cell_imports, cell_project_path, cell_secrets,
    cell_documents, cell_loader, cell_split, cell_embedder, cell_embed_example,
    cell_connect, cell_names, cell_vector_store, getenv;
    surfaces; apply surfaces_find_root.
Qed.

Lemma surfaces_in_cell {A} c (m : M PyExc A) : surfaces raw m -> surfaces snd (in_cell c m).
Proof. by destruct m as [t [e|a]]. Qed.

Lemma surfaces_run_cells cs g : surfaces snd (run_cells w cs g).
Proof.
  revert g. induction cs as [|c cs IH]; intros g; simpl.
  - constructor.
  - apply surfaces_bind; [|done]. apply surfaces_in_cell, surfaces_exec.
Qed.

End SurfacesRun.

Lemma snoc_eq_middle {A} (t' : list A) (x : A) pre y post :
  t' ++ [x] = pre ++ y :: post ->
  (post = [] /\ pre = t' /\ y = x) \/
  (exists post', post = post' ++ [x] /\ t' = pre ++ y :: post').
Proof.
  destruct post as [|z post _] using rev_ind.
  - intros Heq. apply app_inj_tail in Heq as [-> ->]. by left.
  - rewrite app_comm_cons, app_assoc. intros Heq.
    apply app_inj_tail in Heq as [-> ->]. right. by exists post.
Qed.

(** C6, as the code has it.  An exception raised in the run has one of
    two fates.  Either it ends the run: it is the last event, nothing runs
    after it, and the run reports that same exception.  Or it is an
    [Exception] raised by the connectivity ping, which the [except
    Exception] around the ping catches and prints.  A run that ends with
    an exception ends with the raise of it, and after a caught ping
    failure the run goes on to build the vector store. *)
Theorem only_a_failed_ping_is_caught (w : World) :
  (forall pre e post,
     fst (run_all w) = pre ++ Raise e :: post ->
     (post = [] /\ exists c, snd (run_all w) = inl (c, e)) \/
     (is_Exception e = true /\
      exists uri pre' post',
        pre = pre' ++ [Call (Ping uri)] /\ post = Out (OutExc e) :: post')) /\
  (forall c e,
     snd (run_all w) = inl (c, e) -> exists pre, fst (run_all w) = pre ++ [Raise e]) /\
  (forall uri e,
     Call (Ping uri) ∈ fst (run_all w) ->
     ping w uri = Some e -> is_Exception e = true ->
     Call (VectorStoreInit model_name DB_NAME COLLECTION_NAME
             ATLAS_VECTOR_SEARCH_INDEX_NAME "cosine") ∈ fst (run_all w)).
Proof.
  split_and!.
  - intros pre e post Heq.
    pose proof (surfaces_run_cells w notebook (initial w)) as Hs.
    fold (run_all w) in Hs. destruct (run_all w) as [t [[c e0]|g]]; simpl in *.
    + destruct Hs as (t' & -> & Ht').
      apply snoc_eq_middle in Heq as [(-> & -> & [= ->])|(post' & -> & ->)].
      * left. eauto.
      * right.
        destruct (handled_raise_inv _ _ _ _ Ht' eq_refl)
          as (He & uri & pre' & post'' & -> & ->).
        split; [done|]. by exists uri, pre', (post'' ++ [Raise e0]).
    + right. by eapply handled_raise_inv.
  - intros c e Hr.
    pose proof (surfaces_run_cells w notebook (initial w)) as Hs.
    fold (run_all w) in Hs. destruct (run_all w) as [t [[c0 e0]|g]]; simplify_eq/=.
    destruct Hs as (t' & -> & _). by exists t'.
  - intros uri e. unfold run_all. rewrite notebook_split, run_cells_app.
    pose proof (before_connect_calls w (initial w) (Ping uri)) as Hbefore.
    destruct (run_cells w before_connect (initial w)) as [t [e0|g]] eqn:Hpre;
      simpl in Hbefore.
    { intros Hin. by destruct Hbefore. }
    apply globals_before_connect in Hpre
      as (current_dir & vars & ds & splits & Hcwd & Hvars & ->).
    erewrite bind_inr by done. rewrite run_from_connect by done. cbn [fst].
    intros Hin Hping He. apply elem_of_app in Hin as [Hin|Hin]; [by destruct Hbefore|].
    clear Hbefore. apply elem_of_app. right. simpl in *.
    destruct (mongo_client w _); simpl in *.
    { split_elem Hin; by simplify_eq. }
    assert (uri = (environ w ∪ vars) !! uri_key) as <-.
    { case_hyp Hin; split_elem Hin; by simplify_eq. }
    rewrite Hping, He. destruct (vector_store_init w); simpl; set_solver.
Qed.

(** C6 as the spec words it fails: when the ping times out, the exception
    is raised and the run still ends normally, with the cells after the
    ping run. *)
Lemma a_failed_ping_does_not_abort_the_run :
  let timeout := lib_error "ServerSelectionTimeoutError" in
  let w := sample_world ls_project everything_present ∅
             {[ "MONGODB_URI" := "mongodb://db.example" ]} (Some timeout) in
  raised (fst (run_all w)) = [timeout] /\
  (exists g, snd (run_all w) = inr g) /\
  last (fst (run_all w)) =
    Some (Call (VectorStoreInit "llama3.2" "langchain_demo" "emp-policy"
                  "vector_index" "cosine")).
Proof. vm_compute. eauto. Qed.

(** ** What the notebook fixes about the splitter and the embedder

    The chunking and the embedding are the libraries'; the notebook fixes
    the configuration of the first and prints a comparison about the
    second. *)

Lemma splitter_config_in_range :
  (0 <= chunk_overlap splitter_config < chunk_size splitter_config)%Z /\
  add_start_index splitter_config = true.
Proof. done. Qed.

(** The chunks are what the library returns for the loaded pages under
    the fixed configuration. *)
Lemma chunks_are_the_library_answer (w : World) g t g' :
  cell_split w g = (t, inr g') ->
  exists pages splits,
    docs g = Some pages /\
    split_documents w splitter_config pages = inr splits /\
    all_splits g' = Some splits.
Proof.
  intros Hrun. unfold_cell. case_hyp Hrun; simplify_eq/=. eauto.
Qed.

(** The lengths of the two example vectors are compared and the result
    printed; the cell ends normally whatever they are. *)
Lemma vector_lengths_are_only_printed (w : World) g model s0 s1 rest v1 v2 :
  embeddings_model g = Some model ->
  all_splits g = Some (s0 :: s1 :: rest) ->
  embed_query w model (page_content s0) = inr v1 ->
  embed_query w model (page_content s1) = inr v2 ->
  cell_embed_example w g =
    ([Call (EmbedQuery model (page_content s0)); Call (EmbedQuery model (page_content s1));
      Out (OutPair (OutStr "Both embedding have same length:")
                   (OutBool (bool_decide (length v1 = length v2))));
      Out (OutNat (length v1)); Out (OutVec (take 5 v1))],
     inr g).
Proof.
  intros Hmodel Hsplits H1 H2. unfold_cell. rewrite Hmodel, Hsplits. simpl.
  by rewrite H1, H2.
Qed.

(** ** The properties on sample worlds *)

(** The kernel started in [/home/u/rag/src]: the root is the parent,
    found in the first iteration with one listing. *)
Example root_found_in_parent :
  find_root (sample_world ls_project everything_present ∅ ∅ None)
            ["home"; "u"; "rag"; "src"] (parents ["home"; "u"; "rag"; "src"]) =
    ([Call (Listdir ["home"; "u"; "rag"]); Out (OutPath ["home"; "u"; "rag"])],
     inr (["home"; "u"; "rag"], ["home"; "u"; "rag"])).
Proof. reflexivity. Qed.

(** The kernel started one level deeper: [.git] is in the grandparent,
    which is among the ancestors the loop iterates over, and the loop
    still raises after listing the parent twice for each ancestor. *)
Example root_in_grandparent_is_not_found :
  find_root (sample_world ls_project everything_present ∅ ∅ None)
            ["home"; "u"; "rag"; "src"; "nb"] (parents ["home"; "u"; "rag"; "src"; "nb"]) =
    (replicate 10 (Call (Listdir ["home"; "u"; "rag"; "src"])) ++
       [Raise (Exception_ no_root_msg)],
     inl (Exception_ no_root_msg)).
Proof. reflexivity. Qed.

(** At the file-system root there is no ancestor and no listing. *)
Example no_root_from_the_root :
  find_root (sample_world ls_project everything_present ∅ ∅ None) [] (parents []) =
    ([Raise (Exception_ no_root_msg)], inl (Exception_ no_root_msg)).
Proof. reflexivity. Qed.


(** The sample project without its secrets file. *)
Lemma missing_secrets_file_witness :
  let f := ["home"; "u"; "rag"; ".secrets"; ".env"] in
  let w := sample_world ls_project (all_but f) ∅ ∅ None in
  let root := ["home"; "u"; "rag"] in
  let t := [Call ImportModules; Call Getcwd; Call (Listdir root); Out (OutPath root)] in
  let g := set_root_dir root (initial w) in
  let e := AssertionError (Some "File not found: /home/u/rag/.secrets/.env") in
  run_cells w [CellImports; CellProjectPath] (initial w) = (t, inr g) /\
  root_dir g = Some root /\
  path_exists w (secrets_file root) = false /\
  run_all w = (t ++ [Call (Exists f); Raise e], inl (CellSecrets, e)) /\
  forall x, Call x ∈ fst (run_all w) ->
    loads_documents x = false /\ calls_embedder x = false /\
    calls_vector_store x = false.
Proof.
  intros f w root t g e.
  assert (Hpre : run_cells w [CellImports; CellProjectPath] (initial w) = (t, inr g))
    by (vm_compute; reflexivity).
  assert (Hroot : root_dir g = Some root) by reflexivity.
  assert (Hmissing : path_exists w (secrets_file root) = false)
    by (vm_compute; reflexivity).
  split_and!; try done;
    apply (missing_secrets_file_aborts_run w t g root Hpre Hroot Hmissing).
Defined.

(** The sample project without [data/vmd_sample.pdf]. *)
Lemma missing_source_file_witness :
  let file_path := ["home"; "u"; "rag"; "data"; "vmd_sample.pdf"] in
  let w := sample_world ls_project (all_but file_path) ∅
             {[ "MONGODB_URI" := "mongodb://db.example" ]} None in
  let root := ["home"; "u"; "rag"] in
  let t := [Call ImportModules; Call Getcwd; Call (Listdir root); Out (OutPath root);
            Call (Exists (secrets_file root)); Call (LoadDotenv (secrets_file root))] in
  let g := set_os_environ {[ "MONGODB_URI" := "mongodb://db.example" ]}
             (set_root_dir root (initial w)) in
  run_cells w [CellImports; CellProjectPath; CellSecrets; CellDocuments] (initial w)
    = (t, inr g) /\
  root_dir g = Some root /\
  path_exists w (source_file root) = false /\
  run_all w = (t ++ [Call (Exists file_path); Raise (AssertionError None)],
               inl (CellLoader, AssertionError None)) /\
  forall x, Call x ∈ fst (run_all w) ->
    loads_documents x = false /\ calls_embedder x = false /\
    calls_vector_store x = false.
Proof.
  intros file_path w root t g.
  assert (Hpre : run_cells w [CellImports; CellProjectPath; CellSecrets; CellDocuments]
                   (initial w) = (t, inr g))
    by (vm_compute; reflexivity).
  assert (Hroot : root_dir g = Some root) by reflexivity.
  assert (Hmissing : path_exists w (source_file root) = false)
    by (vm_compute; reflexivity).
  split_and!; try done;
    apply (missing_source_file_aborts_run w t g root Hpre Hroot Hmissing).
Defined.

(** [MONGODB_URI] set in the process and in the secrets file: the client
    gets the value of the process. *)
Lemma connection_string_witness :
  let w := sample_world ls_project everything_present
             {[ "MONGODB_URI" := "mongodb://localhost" ]}
             {[ "MONGODB_URI" := "mongodb://db.example" ]} None in
  client_uris (fst (run_all w)) = [Some "mongodb://localhost"] /\
  (forall uri, Call (MongoClient uri) ∈ fst (run_all w) ->
     exists current_dir vars,
       getcwd w = inr current_dir /\
       dotenv_values w (secrets_file (parent current_dir)) = inr vars /\
       uri = (environ w ∪ vars) !! "MONGODB_URI").
Proof.
  intros w. split; [vm_compute; reflexivity|].
  apply (connection_string_is_read_from_MONGODB_URI w).
Defined.

(** A ping that times out in the sample project: the vector store is
    still built. *)
Lemma only_a_failed_ping_is_caught_witness :
  let timeout := lib_error "ServerSelectionTimeoutError" in
  let w := sample_world ls_project everything_present ∅
             {[ "MONGODB_URI" := "mongodb://db.example" ]} (Some timeout) in
  let uri := Some "mongodb://db.example" in
  Call (Ping uri) ∈ fst (run_all w) /\
  ping w uri = Some timeout /\
  is_Exception timeout = true /\
  Call (VectorStoreInit model_name DB_NAME COLLECTION_NAME
          ATLAS_VECTOR_SEARCH_INDEX_NAME "cosine") ∈ fst (run_all w).
Proof.
  intros timeout w uri.
  assert (Hin : Call (Ping uri) ∈ fst (run_all w)).
  { apply list_elem_of_lookup. exists 24%nat. vm_compute. reflexivity. }
  split_and!; try done.
  by apply (proj2 (proj2 (only_a_failed_ping_is_caught w)) uri timeout).
Defined.

(** * More about the cells *)

(** ** The root loop, completely *)

Section FindRootMore.

Variable w : World.

Lemma find_root_no_marker_run cur names ps :
  listdir w (parent cur) = inr names ->
  ".git" ∉ names -> ".project-root" ∉ names ->
  find_root w cur ps =
    (replicate (2 * length ps) (Call (Listdir (parent cur))) ++
       [Raise (Exception_ no_root_msg)],
     inl (Exception_ no_root_msg)).
Proof.
  intros Hl Hgit Hpr. induction ps as [|p rest IH]; [done|].
  rewrite find_root_cons, Hl, !bool_decide_eq_false_2 by done.
  rewrite IH. simpl. by rewrite Nat.add_succ_r.
Qed.


Lemma find_root_found cur p root :
  snd (find_root w cur (parents cur)) = inr (p, root) ->
  root = parent cur /\ cur <> [] /\
  exists names, listdir w (parent cur) = inr names /\
                (".git" ∈ names \/ ".project-root" ∈ names).
Proof.
  intros Hrun. split_and!.
  - by apply find_root_result in Hrun as (-> & _).
  - by intros ->.
  - by apply find_root_result in Hrun as (_ & _ & Hnames).
Qed.

End FindRootMore.

(** X1. Without a marker in the listing of [current_dir.parent] the loop lists
    that one directory twice for every ancestor of [current_dir], whatever
    the ancestors hold, and then raises the [Exception] of its [else]. *)
Theorem no_marker_lists_parent_twice_per_ancestor
    (w : World) (current_dir : Path) (names : list string) :
  listdir w (parent current_dir) = inr names ->
  ".git" ∉ names -> ".project-root" ∉ names ->
  find_root w current_dir (parents current_dir) =
    (replicate (2 * length current_dir) (Call (Listdir (parent current_dir))) ++
       [Raise (Exception_ no_root_msg)],
     inl (Exception_ no_root_msg)).
Proof.
  intros Hl Hgit Hpr.
  rewrite (find_root_no_marker_run w current_dir names) by done.
  by rewrite parents_length.
Qed.

(** The kernel started in [/home/u/rag/src/nb]: ten listings of
    [/home/u/rag/src], although [/home/u/rag] holds [.git]. *)
Lemma no_marker_witness :
  let w := sample_world ls_project everything_present ∅ ∅ None in
  let current_dir := ["home"; "u"; "rag"; "src"; "nb"] in
  listdir w (parent current_dir) = inr ["Indexing-tutorial.ipynb"] /\
  listdir w (parent (parent current_dir)) = inr [".git"; ".secrets"; "data"; "src"] /\
  find_root w current_dir (parents current_dir) =
    (replicate 10 (Call (Listdir (parent current_dir))) ++
       [Raise (Exception_ no_root_msg)],
     inl (Exception_ no_root_msg)).
Proof.
  intros w current_dir. split_and!; [done|done|].
  apply (no_marker_lists_parent_twice_per_ancestor w current_dir
           ["Indexing-tutorial.ipynb"]).
  - reflexivity.
  - intros Hin. split_elem Hin; discriminate.
  - intros Hin. split_elem Hin; discriminate.
Defined.

(** ** When cells end normally *)

Section Steps.

Variable w : World.

Lemma exec_step c g t g' :
  exec w c g = (t, inr g') -> step w c g g'.
Proof.
  intros Hrun. destruct c; simpl in *; unfold_cell.
  2: { (* the root loop *)
    destruct (getcwd w) as [e|cur] eqn:Hcwd; simpl in Hrun; [done|].
    destruct (find_root w cur (parents cur)) as [t' [e|[p root]]] eqn:Hloop;
      simpl in Hrun; [done|]. injection Hrun as <- <-.
    apply (f_equal snd) in Hloop. simpl in Hloop.
    apply find_root_found in Hloop as (-> & Hne & names & Hl & Hm).
    exists cur, names. eauto 10. }
  all: case_hyp Hrun; simplify_eq/=.
  all: repeat match goal with |- ex _ => eexists end; split_and?; try done.
  - (* the loader: docs[37] exists *)
    match goal with H : _ !! 37 = Some _ |- _ => apply lookup_lt_Some in H end. lia.
  - (* the connect cell: the ping raised an Exception *)
    by intros e' [= <-].
Qed.

End Steps.

(** X2. The notebook runs to its end exactly in the worlds of [completes]:
    every library call succeeds (the ping may also raise an [Exception]),
    the kernel is started below a directory marked as project root, the
    secrets file and the PDF exist, the PDF has at least 38 pages and the
    splitter returns at least 2 chunks. *)
Theorem run_completes_iff (w : World) :
  (exists t g, run_all w = (t, inr g)) <-> completes w.
Proof.
  split.
  - intros (t & g & Hrun). unfold run_all, notebook in Hrun.
    repeat match goal with
    | H : run_cells w (_ :: _) _ = (_, inr _) |- _ =>
        apply run_cells_cons_inv in H as (? & ? & ? & ?%exec_step & H & ->)
    end.
    clear Hrun. simpl in *. destruct_and?.
    repeat match goal with H : ex _ |- _ => destruct H end.
    destruct_and?. simplify_eq/=.
    unfold completes. do 9 eexists. split_and!; eauto.
  - intros (cur & names & vars & pages & splits & s0 & s1 & v1 & v2 & Himp & Hcwd & Hne
            & Hl & Hm & Hsec & Hvars & Hsrc & Hinit & Hload & Hlen & Hsinit & Hsplit
            & Heinit & Hs0 & Hs1 & Hv1 & Hv2 & Hmongo & Hping & Hstore).
    destruct (lookup_lt_is_Some_2 pages 37) as [d37 Hd37]; [lia|].
    destruct (lookup_lt_is_Some_2 pages 0) as [d0 Hd0]; [lia|].
    destruct (parents_nonempty cur Hne) as [rest Hparents].
    assert (Hloop : exists tl, find_root w cur (parents cur) = (tl, inr (parent cur, parent cur))).
    { rewrite Hparents, find_root_cons, Hl.
      destruct (decide (".git" ∈ names)) as [Hgit|Hgit].
      { rewrite bool_decide_eq_true_2 by done. eauto. }
      rewrite bool_decide_eq_false_2 by done.
      destruct Hm as [?|Hpr]; [done|]. rewrite bool_decide_eq_true_2 by done. eauto. }
    destruct Hloop as [tl Hloop].
    unfold run_all, notebook. simpl. unfold_cell. simpl.
    rewrite Himp. simpl. rewrite Hcwd. simpl. rewrite Hloop. simpl.
    fold (secrets_file (parent cur)). rewrite Hsec. simpl. rewrite Hvars. simpl.
    fold (source_file (parent cur)). rewrite Hsrc. simpl. rewrite Hinit. simpl.
    rewrite Hload. simpl. rewrite Hd37. simpl. rewrite Hd0. simpl.
    rewrite Hsinit. simpl. rewrite Hsplit. simpl. rewrite Heinit. simpl.
    rewrite Hs0. simpl. rewrite Hv1. simpl. rewrite Hs1. simpl. rewrite Hv2. simpl.
    rewrite Hmongo. simpl.
    destruct (ping w _) as [e|] eqn:Hp; simpl.
    + rewrite (Hping e eq_refl). simpl. rewrite Hstore. simpl. eauto.
    + rewrite Hstore. simpl. eauto.
Qed.

(** ** Where a run can fail *)


(** Case analysis on the position of a cell in an explicit list of
    cells. *)
Ltac positions Heq pre tac :=
  destruct pre as [|? pre];
  [ simpl in Heq; simplify_eq; tac
  | simpl in Heq;
    first [ discriminate Heq | injection Heq as <- Heq; positions Heq pre tac ] ].

Section Failures.

Variable w : World.




End Failures.



(** ** What reaches the libraries *)

(** Unfolds the cells that ran before the one in hand. *)
Ltac ran_before w :=
  repeat match goal with
  | H : run_cells w (_ :: _) _ = (_, inr _) |- _ =>
      apply run_cells_cons_inv in H as (? & ? & ? & ?%exec_step & H & ->)
  end;
  simpl in *; destruct_and?;
  repeat match goal with H : ex _ |- _ => destruct H end;
  destruct_and?; unfold ret in *; simplify_eq/=.

Section Calls.

Variable w : World.

Lemma run_cells_call_inv cs g x :
  Call x ∈ fst (run_cells w cs g) ->
  exists pre c post t g',
    cs = pre ++ c :: post /\ run_cells w pre g = (t, inr g') /\
    Call x ∈ fst (exec w c g') /\ may_call c x = true.
Proof.
  revert g. induction cs as [|c cs IH]; intros g; simpl.
  { by intros ?%elem_of_nil. }
  destruct (exec w c g) as [t0 [e0|g0]] eqn:Hc; simpl.
  - intros Hin. exists [], c, cs, [], g. rewrite Hc. split_and!; try done.
    apply (exec_may_call w c g). by rewrite Hc.
  - destruct (run_cells w cs g0) as [t' r] eqn:Hcs. simpl.
    intros [Hin|Hin]%elem_of_app.
    + exists [], c, cs, [], g. rewrite Hc. split_and!; try done.
      apply (exec_may_call w c g). by rewrite Hc.
    + destruct (IH g0) as (pre & c' & post & t1 & g1 & -> & Hpre & Hin' & Hmay).
      { by rewrite Hcs. }
      exists (c :: pre), c', post, (t0 ++ t1), g1. split_and!; try done.
      simpl. rewrite Hc. simpl. by rewrite Hpre.
Qed.

End Calls.

(** X4. The splitter is only ever asked to split, with chunk size 1000,
    overlap 200 and start indices, the pages the loader returned for
    [<parent of the working directory>/data/vmd_sample.pdf], and there
    are then at least 38 of them. *)
Theorem splitter_gets_the_loaded_pages
    (w : World) (cfg : SplitterConfig) (pages : list Document) :
  Call (SplitDocuments cfg pages) ∈ fst (run_all w) ->
  cfg = splitter_config /\
  exists current_dir,
    getcwd w = inr current_dir /\
    pdf_load w (source_file (parent current_dir)) = inr pages /\
    38 <= length pages.
Proof.
  intros (pre & c & post & t & g & Heq & Hrun & Hin & Hmay)%run_cells_call_inv.
  unfold notebook in Heq.
  positions Heq pre ltac:(try discriminate Hmay).
  ran_before w. unfold_cell. simpl in Hin.
  case_hyp Hin; split_elem Hin; simplify_eq/=; eauto.
Qed.

Lemma splitter_witness :
  let w := sample_world ls_project everything_present ∅ ∅ None in
  let pages := replicate 38 (mkDocument "page" ∅ None) in
  Call (SplitDocuments splitter_config pages) ∈ fst (run_all w) /\
  exists current_dir,
    getcwd w = inr current_dir /\
    pdf_load w (source_file (parent current_dir)) = inr pages /\
    38 <= length pages.
Proof.
  intros w pages.
  assert (Hin : Call (SplitDocuments splitter_config pages) ∈ fst (run_all w)).
  { apply list_elem_of_lookup. exists 14%nat. vm_compute. reflexivity. }
  split; [done|].
  apply (splitter_gets_the_loaded_pages w splitter_config pages Hin).
Defined.

Section Embeddings.

Variable w : World.

Lemma embed_calls_app t1 t2 : embed_calls (t1 ++ t2) = embed_calls t1 ++ embed_calls t2.
Proof. apply omap_app. Qed.

Lemma embed_calls_nil t :
  (forall model text, Call (EmbedQuery model text) ∉ t) -> embed_calls t = [].
Proof.
  induction t as [|ev t IH]; [done|]. intros Hno.
  assert (embed_calls t = []) as Ht.
  { apply IH. intros model text Hin. apply (Hno model text). by right. }
  destruct ev as [[]| |]; simpl; try done.
  exfalso. eapply Hno. left.
Qed.

Lemma embed_calls_run_cells cs g :
  CellEmbedExample ∉ cs -> embed_calls (fst (run_cells w cs g)) = [].
Proof.
  intros Hnot. apply embed_calls_nil. intros model text Hin.
  apply run_cells_may_call in Hin as (c & Hc & Hmay).
  destruct c; try done.
Qed.

(** The embedding queries of the example cell: a prefix of the chunks,
    of length at most two. *)
Lemma embed_example_calls g model splits :
  embeddings_model g = Some model ->
  all_splits g = Some splits ->
  exists chunks,
    embed_calls (fst (cell_embed_example w g))
      = (fun s => (model, page_content s)) <$> chunks /\
    length chunks <= 2 /\ chunks `prefix_of` splits /\
    (forall g', snd (cell_embed_example w g) = inr g' -> length chunks = 2).
Proof.
  intros Hmodel Hsplits. unfold_cell. rewrite Hmodel, Hsplits. simpl.
  destruct splits as [|s0 splits]; simpl.
  { exists []. split_and!; [done|simpl; lia|apply prefix_nil|done]. }
  destruct (embed_query w model (page_content s0)) as [e|v1]; simpl.
  { exists [s0]. split_and!; [done|simpl; lia| |done]. by exists splits. }
  destruct splits as [|s1 splits]; simpl.
  { exists [s0]. split_and!; [done|simpl; lia|by exists []|done]. }
  exists [s0; s1]. split_and!; [|simpl; lia|by exists splits|done].
  by destruct (embed_query w model (page_content s1)).
Qed.

(** The globals when the example cell starts. *)
Lemma globals_before_embed_example t g :
  run_cells w [CellImports; CellProjectPath; CellSecrets; CellDocuments; CellLoader;
               CellSplit; CellEmbedder] (initial w) = (t, inr g) ->
  exists current_dir pages splits,
    getcwd w = inr current_dir /\
    pdf_load w (source_file (parent current_dir)) = inr pages /\
    split_documents w splitter_config pages = inr splits /\
    embeddings_model g = Some model_name /\ all_splits g = Some splits.
Proof. intros Hrun. ran_before w. eauto 10. Qed.

Lemma run_cells_cons c cs g :
  run_cells w (c :: cs) g = bind (in_cell c (exec w c g)) (run_cells w cs).
Proof. reflexivity. Qed.

End Embeddings.

(** X5. The notebook embeds at most two texts, with the model [llama3.2]: the
    contents of the first chunks the splitter returned for the loaded
    pages, in order, and both of them in a run that reaches its end.  The
    other chunks are never embedded. *)
Theorem embeds_at_most_the_first_two_chunks (w : World) :
  exists chunks,
    embed_calls (fst (run_all w))
      = (fun s => (model_name, page_content s)) <$> chunks /\
    length chunks <= 2 /\
    (chunks = [] \/
     exists current_dir pages splits,
       getcwd w = inr current_dir /\
       pdf_load w (source_file (parent current_dir)) = inr pages /\
       split_documents w splitter_config pages = inr splits /\
       chunks `prefix_of` splits) /\
    (forall g, snd (run_all w) = inr g -> length chunks = 2).
Proof.
  unfold run_all.
  change notebook with
    ([CellImports; CellProjectPath; CellSecrets; CellDocuments; CellLoader; CellSplit;
      CellEmbedder] ++ CellEmbedExample :: from_connect).
  rewrite run_cells_app.
  match goal with |- context [run_cells w ?pre (initial w)] =>
    pose proof (embed_calls_run_cells w pre (initial w)) as Hbefore;
    destruct (run_cells w pre (initial w)) as [t [e|g]] eqn:Hpre
  end; simpl in Hbefore.
  { exists []. simpl. rewrite Hbefore; [split_and!; [done|simpl; lia|by left|done]|].
    intros Hin. split_elem Hin; discriminate. }
  erewrite bind_inr by done. cbn [fst snd]. rewrite embed_calls_app, Hbefore.
  2: { intros Hin. split_elem Hin; discriminate. }
  clear Hbefore.
  apply globals_before_embed_example in Hpre
    as (current_dir & pages & splits & Hcwd & Hload & Hsplit & Hmodel & Hsplits).
  destruct (embed_example_calls w g model_name splits Hmodel Hsplits)
    as (chunks & Hcalls & Hlen & Hprefix & Hboth).
  exists chunks. rewrite run_cells_cons. cbn [exec].
  destruct (cell_embed_example w g) as [t' [e|g']]; simpl in Hcalls, Hboth.
  { split_and!; [done|done|right; eauto 10|done]. }
  cbn [in_cell]. erewrite bind_inr by done. cbn [fst snd].
  rewrite embed_calls_app, embed_calls_run_cells, app_nil_r.
  2: { unfold from_connect. intros Hin. split_elem Hin; discriminate. }
  split_and!; [done|done|right; eauto 10|]. intros _ _. by apply (Hboth g').
Qed.

Lemma embeds_two_chunks_witness :
  let w := sample_world ls_project everything_present ∅ ∅ None in
  embed_calls (fst (run_all w)) = [("llama3.2", "pa"); ("llama3.2", "ge")] /\
  exists chunks,
    embed_calls (fst (run_all w))
      = (fun s => (model_name, page_content s)) <$> chunks /\
    length chunks <= 2 /\
    (chunks = [] \/
     exists current_dir pages splits,
       getcwd w = inr current_dir /\
       pdf_load w (source_file (parent current_dir)) = inr pages /\
       split_documents w splitter_config pages = inr splits /\
       chunks `prefix_of` splits) /\
    (forall g, snd (run_all w) = inr g -> length chunks = 2).
Proof.
  intros w. split; [vm_compute; reflexivity|].
  apply (embeds_at_most_the_first_two_chunks w).
Defined.

(** X6. The vector store is only contacted (client, ping or store object)
    after the example prints went through: the PDF had at least 38 pages
    and the splitter returned at least 2 chunks. *)
Theorem vector_store_needs_38_pages_and_2_chunks (w : World) (x : extcall) :
  Call x ∈ fst (run_all w) ->
  calls_vector_store x = true ->
  exists current_dir pages splits,
    getcwd w = inr current_dir /\
    pdf_load w (source_file (parent current_dir)) = inr pages /\
    38 <= length pages /\
    split_documents w splitter_config pages = inr splits /\
    2 <= length splits.
Proof.
  intros (pre & c & post & t & g & Heq & Hrun & Hin & Hmay)%run_cells_call_inv Hstore.
  unfold notebook in Heq.
  positions Heq pre ltac:(try by destruct x).
  all: clear Hin; ran_before w.
  all: match goal with H : _ !! 1 = Some _ |- _ => apply lookup_lt_Some in H end.
  all: do 3 eexists; split_and!; try done; lia.
Qed.

Lemma vector_store_witness :
  let w := sample_world ls_project everything_present ∅ ∅ None in
  Call (MongoClient None) ∈ fst (run_all w) /\
  calls_vector_store (MongoClient None) = true /\
  exists current_dir pages splits,
    getcwd w = inr current_dir /\
    pdf_load w (source_file (parent current_dir)) = inr pages /\
    38 <= length pages /\
    split_documents w splitter_config pages = inr splits /\
    2 <= length splits.
Proof.
  intros w.
  assert (Hin : Call (MongoClient None) ∈ fst (run_all w)).
  { apply list_elem_of_lookup. exists 23%nat. vm_compute. reflexivity. }
  split_and!; [done|done|].
  apply (vector_store_needs_38_pages_and_2_chunks w (MongoClient None) Hin eq_refl).
Defined.

(** ** Documents that are too short for the example prints *)

(** X7. A PDF of fewer than 38 pages is loaded, and the run then ends in the
    loader cell with the [IndexError] of [docs[37]]: after the page count
    and ["CONTENT"] are printed, before anything is split. *)
Theorem short_pdf_ends_the_run_after_loading
    (w : World) (t : trace) (g : Globals) (root : Path) (pages : list Document) :
  run_cells w [CellImports; CellProjectPath; CellSecrets; CellDocuments] (initial w)
    = (t, inr g) ->
  root_dir g = Some root ->
  path_exists w (source_file root) = true ->
  pdf_loader_init w (source_file root) = None ->
  pdf_load w (source_file root) = inr pages ->
  length pages < 38 ->
  let file_path := source_file root in
  run_all w =
    (t ++ [Call (Exists file_path); Call (LoaderInit file_path);
           Call (LoaderLoad file_path); Out (OutNat (length pages));
           Out (OutStr "CONTENT"); Raise IndexError],
     inl (CellLoader, IndexError)).
Proof.
  intros Hpre Hroot Hexists Hinit Hload Hlen file_path.
  unfold run_all, notebook.
  change (run_cells w ([CellImports; CellProjectPath; CellSecrets; CellDocuments] ++
            [CellLoader; CellSplit; CellEmbedder;
             CellEmbedExample; CellConnect; CellNames; CellVectorStore])
            (initial w) = (t ++ [Call (Exists file_path); Call (LoaderInit file_path);
           Call (LoaderLoad file_path); Out (OutNat (length pages));
           Out (OutStr "CONTENT"); Raise IndexError],
     inl (CellLoader, IndexError))).
  rewrite run_cells_app, Hpre. simpl.
  unfold cell_loader. rewrite Hroot. simpl.
  fold (source_file root). rewrite Hexists. simpl. rewrite Hinit. simpl.
  rewrite Hload. simpl. unfold index.
  by rewrite (lookup_ge_None_2 pages 37) by lia.
Qed.

Lemma short_pdf_witness :
  let pages := replicate 37 (page "text") in
  let w := library_world pages [] None in
  let root := ["home"; "u"; "rag"] in
  let t := [Call ImportModules; Call Getcwd; Call (Listdir root); Out (OutPath root);
            Call (Exists (secrets_file root)); Call (LoadDotenv (secrets_file root))] in
  let g := set_os_environ {[ "MONGODB_URI" := "mongodb://db.example" ]}
             (set_root_dir root (initial w)) in
  let file_path := source_file root in
  run_cells w [CellImports; CellProjectPath; CellSecrets; CellDocuments] (initial w)
    = (t, inr g) /\
  length pages < 38 /\
  run_all w =
    (t ++ [Call (Exists file_path); Call (LoaderInit file_path);
           Call (LoaderLoad file_path); Out (OutNat 37);
           Out (OutStr "CONTENT"); Raise IndexError],
     inl (CellLoader, IndexError)).
Proof.
  intros pages w root t g file_path.
  assert (Hpre : run_cells w [CellImports; CellProjectPath; CellSecrets; CellDocuments]
                   (initial w) = (t, inr g))
    by (vm_compute; reflexivity).
  assert (Hlen : length pages < 38) by (vm_compute; lia).
  split_and!; [done|done|].
  apply (short_pdf_ends_the_run_after_loading w t g root pages Hpre
           eq_refl eq_refl eq_refl eq_refl Hlen).
Defined.

Lemma embedder_is_set_before_the_example (w : World) t g :
  run_cells w [CellImports; CellProjectPath; CellSecrets; CellDocuments; CellLoader;
               CellSplit; CellEmbedder] (initial w) = (t, inr g) ->
  embeddings_model g = Some model_name.
Proof. by intros (? & ? & ? & ? & ? & ? & ? & ?)%globals_before_embed_example. Qed.

(** X8. When the splitter returns fewer than 2 chunks, the chunk there is, if
    any, is embedded, and the run ends in the example cell with the
    [IndexError] of [all_splits[0]] or [all_splits[1]]. *)
Theorem fewer_than_two_chunks_end_the_run
    (w : World) (t : trace) (g : Globals) (splits : list Document) :
  run_cells w [CellImports; CellProjectPath; CellSecrets; CellDocuments; CellLoader;
               CellSplit; CellEmbedder] (initial w) = (t, inr g) ->
  all_splits g = Some splits ->
  length splits < 2 ->
  (forall s, s ∈ splits -> exists v, embed_query w model_name (page_content s) = inr v) ->
  run_all w =
    (t ++ ((fun s => Call (EmbedQuery model_name (page_content s))) <$> splits) ++
       [Raise IndexError],
     inl (CellEmbedExample, IndexError)).
Proof.
  intros Hpre Hsplits Hlen Hembed.
  pose proof (embedder_is_set_before_the_example w t g Hpre) as Hmodel.
  unfold run_all, notebook.
  change (run_cells w ([CellImports; CellProjectPath; CellSecrets; CellDocuments;
                        CellLoader; CellSplit; CellEmbedder] ++
            [CellEmbedExample; CellConnect; CellNames; CellVectorStore])
            (initial w) =
          (t ++ ((fun s => Call (EmbedQuery model_name (page_content s))) <$> splits) ++
             [Raise IndexError],
           inl (CellEmbedExample, IndexError))).
  rewrite run_cells_app, Hpre. simpl.
  unfold cell_embed_example. rewrite Hmodel, Hsplits. simpl.
  destruct splits as [|s0 [|s1 splits]]; simpl in *; [done| |lia].
  destruct (Hembed s0) as [v ->]; [by left|]. done.
Qed.

Lemma fewer_than_two_chunks_witness :
  let chunk := page "the only chunk" in
  let w := library_world (replicate 38 (page "text")) [chunk] None in
  let pre := [CellImports; CellProjectPath; CellSecrets; CellDocuments; CellLoader;
              CellSplit; CellEmbedder] in
  let t := fst (run_cells w pre (initial w)) in
  let g := set_embeddings_model model_name
             (set_all_splits [chunk]
                (set_docs (replicate 38 (page "text"))
                   (set_os_environ {[ "MONGODB_URI" := "mongodb://db.example" ]}
                      (set_root_dir ["home"; "u"; "rag"] (initial w))))) in
  run_cells w pre (initial w) = (t, inr g) /\
  run_all w =
    (t ++ [Call (EmbedQuery model_name "the only chunk"); Raise IndexError],
     inl (CellEmbedExample, IndexError)).
Proof.
  intros chunk w pre t g.
  assert (Hpre : run_cells w pre (initial w) = (t, inr g)) by (vm_compute; reflexivity).
  split; [done|].
  apply (fewer_than_two_chunks_end_the_run w t g [chunk] Hpre eq_refl).
  - simpl. lia.
  - intros s _. by exists [0%float].
Defined.

(** ** The ping *)

Section Ping.

Variable w : World.

Lemma exec_set_ping pong c g :
  c <> CellConnect -> exec (set_ping pong w) c g = exec w c g.
Proof. by destruct c. Qed.

Lemma run_cells_set_ping pong cs g :
  CellConnect ∉ cs -> run_cells (set_ping pong w) cs g = run_cells w cs g.
Proof.
  revert g. induction cs as [|c cs IH]; intros g Hnot; [done|].
  rewrite !run_cells_cons, exec_set_ping.
  - destruct (exec w c g) as [t [e|g']]; [done|]. simpl.
    rewrite IH; [done|]. intros Hin. apply Hnot. by right.
  - intros ->. apply Hnot. by left.
Qed.

End Ping.

(** X9. The ping only reports: whether it succeeds or raises an [Exception],
    and whichever, the run ends in the same way, in the same cell with the
    same exception or normally with the same globals. *)
Theorem ping_answer_does_not_change_the_result
    (w : World) (pong1 pong2 : option string -> option PyExc) :
  (forall uri e, pong1 uri = Some e -> is_Exception e = true) ->
  (forall uri e, pong2 uri = Some e -> is_Exception e = true) ->
  snd (run_all (set_ping pong1 w)) = snd (run_all (set_ping pong2 w)).
Proof.
  intros H1 H2. unfold run_all. rewrite notebook_split, !run_cells_app.
  change (initial (set_ping pong1 w)) with (initial w).
  change (initial (set_ping pong2 w)) with (initial w).
  rewrite !run_cells_set_ping
    by (unfold before_connect; intros Hin; split_elem Hin; discriminate).
  destruct (run_cells w before_connect (initial w)) as [t [e|g]] eqn:Hpre; [done|].
  apply globals_before_connect in Hpre
    as (current_dir & vars & ds & splits & Hcwd & Hvars & ->).
  erewrite !bind_inr by done. rewrite !run_from_connect by done. cbn [snd].
  change (mongo_client (set_ping pong1 w)) with (mongo_client w).
  change (mongo_client (set_ping pong2 w)) with (mongo_client w).
  change (vector_store_init (set_ping pong1 w)) with (vector_store_init w).
  change (vector_store_init (set_ping pong2 w)) with (vector_store_init w).
  change (ping (set_ping pong1 w)) with pong1.
  change (ping (set_ping pong2 w)) with pong2.
  cbn [os_environ].
  destruct (mongo_client w _); [done|].
  destruct (pong1 _) as [e1|] eqn:Hp1, (pong2 _) as [e2|] eqn:Hp2;
    try rewrite (H1 _ _ Hp1); try rewrite (H2 _ _ Hp2);
    by destruct (vector_store_init w).
Qed.

Lemma ping_answer_witness :
  let w := sample_world ls_project everything_present ∅ ∅ None in
  let up : option string -> option PyExc := fun _ => None in
  let down : option string -> option PyExc :=
    fun _ => Some (lib_error "ServerSelectionTimeoutError") in
  (forall uri e, up uri = Some e -> is_Exception e = true) /\
  (forall uri e, down uri = Some e -> is_Exception e = true) /\
  snd (run_all (set_ping up w)) = snd (run_all (set_ping down w)).
Proof.
  intros w up down.
  assert (Hup : forall uri e, up uri = Some e -> is_Exception e = true) by done.
  assert (Hdown : forall uri e, down uri = Some e -> is_Exception e = true).
  { intros uri e [= <-]. reflexivity. }
  split_and!; [done|done|].
  apply (ping_answer_does_not_change_the_result w up down Hup Hdown).
Defined.

(** X10. An exception of the ping that is no [Exception], such as a keyboard
    interrupt, passes the [except Exception]: the run ends in the connect
    cell with it, and nothing is printed or built after it. *)
Theorem ping_interrupt_ends_the_run
    (w : World) (t : trace) (g : Globals) (e : PyExc) :
  run_cells w before_connect (initial w) = (t, inr g) ->
  let uri := os_environ g !! uri_key in
  mongo_client w uri = None ->
  ping w uri = Some e ->
  is_Exception e = false ->
  run_all w =
    (t ++ [Call (Getenv uri_key); Call (MongoClient uri); Call (Ping uri); Raise e],
     inl (CellConnect, e)).
Proof.
  intros Hpre uri Hmongo Hping He.
  unfold run_all. rewrite notebook_split, run_cells_app, Hpre.
  apply globals_before_connect in Hpre
    as (current_dir & vars & ds & splits & Hcwd & Hvars & ->).
  erewrite bind_inr by done. rewrite run_from_connect by done.
  subst uri. cbn [os_environ] in *. by rewrite Hmongo, Hping, He.
Qed.

Lemma ping_interrupt_witness :
  let w := sample_world ls_project everything_present ∅
             {[ "MONGODB_URI" := "mongodb://db.example" ]} (Some KeyboardInterrupt) in
  let uri := Some "mongodb://db.example" in
  let t := fst (run_cells w before_connect (initial w)) in
  snd (run_cells w before_connect (initial w)) =
    inr (mkGlobals {[ "MONGODB_URI" := "mongodb://db.example" ]}
           (Some ["home"; "u"; "rag"]) (Some (replicate 38 (mkDocument "page" ∅ None)))
           (Some [mkDocument "pa" ∅ None; mkDocument "ge" ∅ None])
           (Some model_name) None None) /\
  is_Exception KeyboardInterrupt = false /\
  run_all w =
    (t ++ [Call (Getenv uri_key); Call (MongoClient uri); Call (Ping uri);
           Raise KeyboardInterrupt],
     inl (CellConnect, KeyboardInterrupt)).
Proof.
  intros w uri t.
  set (g := mkGlobals {[ "MONGODB_URI" := "mongodb://db.example" ]}
           (Some ["home"; "u"; "rag"]) (Some (replicate 38 (mkDocument "page" ∅ None)))
           (Some [mkDocument "pa" ∅ None; mkDocument "ge" ∅ None])
           (Some model_name) None None).
  assert (Hpre : run_cells w before_connect (initial w) = (t, inr g))
    by (vm_compute; reflexivity).
  split_and!; [by rewrite Hpre|done|].
  apply (ping_interrupt_ends_the_run w t g KeyboardInterrupt Hpre eq_refl eq_refl eq_refl).
Defined.
